(** * Trellis job submission and status tracking

    A shallow embedding of [backend/app/endpoints/trellis/router.py] and
    [backend/main.py]: the two request handlers, the single status slot they
    share with pollers, and the two collaborators they call
    ([redis_service] and [trellis_service]). *)

From Stdlib Require Import ZArith Floats.PrimFloat.
From stdpp Require Import base option gmap strings list.

Local Open Scope string_scope.
Local Open Scope list_scope.
Local Open Scope Z_scope.

Set Warnings "-inexact-float,-register-all".

(** ** Python values

    JSON-shaped Python values: what the handlers put in the status payload,
    what the engine hands back, and what the store gives on a read.  A [dict]
    with string keys is a [gmap], so two dicts are equal exactly when they
    hold the same items, as with Python's [==]. *)

Inductive value : Type :=
  | VNone
  | VBool (b : bool)
  | VInt (n : Z)
  | VFloat (x : float)
  | VStr (s : string)
  | VList (l : list value)
  | VDict (d : gmap string value).

(** Truth value testing, as used by [if not status]: [None], [False], a
    zero number, and an empty string, list or dict are false. *)
Definition truthy (v : value) : bool :=
  match v with
  | VNone => false
  | VBool b => b
  | VInt n => negb (Z.eqb n 0)
  | VFloat x => negb (PrimFloat.eqb x 0%float)
  | VStr s => negb (String.eqb s "")
  | VList l => match l with [] => false | _ :: _ => true end
  | VDict d => negb (Nat.eqb (size d) 0)
  end.

(** [d.get(key)] and [d.get(key, default)]. *)
Definition dict_get (d : gmap string value) (key : string) : value :=
  default VNone (d !! key).

Definition dict_get_default (d : gmap string value) (key : string) (dflt : value) : value :=
  default dflt (d !! key).

(** ** Exceptions

    The handlers look at a caught exception only through [str(e)]. *)
Record exn : Type := Exception { str : string }.

(** What can leave a handler instead of a return value: the [HTTPException]
    it raises itself, or an exception nobody caught. *)
Inductive raised : Type :=
  | HTTPException (status_code : Z) (detail : string)
  | Uncaught (e : exn).

(** ** The collaborators

    [trellis_service.generate_3d_asset] is called with fourteen keyword
    arguments. *)
Record kwargs : Type := Kwargs {
  kw_images : list string;
  kw_seed : Z;
  kw_randomize_seed : bool;
  kw_texture_size : Z;
  kw_mesh_simplify : float;
  kw_generate_color : bool;
  kw_generate_normal : bool;
  kw_generate_model : bool;
  kw_save_gaussian_ply : bool;
  kw_return_no_background : bool;
  kw_ss_sampling_steps : Z;
  kw_ss_guidance_strength : float;
  kw_slat_sampling_steps : Z;
  kw_slat_guidance_strength : float;
}.

(** [redis_service] ([app.core.redis]) as the handlers use it: [set_json(key,
    value, ex=...)] and [get_json(key)], each of which returns or raises and
    leaves the store in some state.  What [set_json] returns is dropped by
    its only caller; [get_json] gives [None] as [VNone]. *)
Class RedisService (Store : Type) : Type := {
  set_json : string → value → Z → Store → (exn + unit) * Store;
  get_json : string → Store → (exn + value) * Store;
}.

(** What a [trellis_service] offers: the external engine, which returns a
    dict of artifacts or raises.  The router takes its service from
    [app.integrations.trellis] and [main.py] takes its own from [trellis];
    they are two instances, and nothing says that they answer alike. *)
Class TrellisService : Type := {
  trellis_generate_3d_asset : kwargs → exn + gmap string value;
}.

(** The calls a handler makes to its collaborators, in the order it makes
    them. *)
Inductive call : Type :=
  | CallSetJson (key : string) (payload : value) (ex : Z)
  | CallGetJson (key : string)
  | CallGenerate (kw : kwargs).

(** ** Handlers as state transformers

    A handler runs against the store and leaves a log of its calls. *)
Record World (Store : Type) : Type := mkWorld {
  redis : Store;
  calls : list call;
}.
Arguments mkWorld {Store} _ _.
Arguments redis {Store} _.
Arguments calls {Store} _.

Definition M (Store E A : Type) : Type := World Store → (E + A) * World Store.

Section Monad.
Context {Store : Type}.

Definition ret {E A} (a : A) : M Store E A := λ w, (inr a, w).

Definition raise {E A} (e : E) : M Store E A := λ w, (inl e, w).

Definition bind {E A B} (m : M Store E A) (k : A → M Store E B) : M Store E B :=
  λ w, match m w with
       | (inr a, w') => k a w'
       | (inl e, w') => (inl e, w')
       end.

(** [try: body  except Exception as e: handler e] *)
Definition try_except {E E' A} (body : M Store E A) (handler : E → M Store E' A)
  : M Store E' A :=
  λ w, match body w with
       | (inr a, w') => (inr a, w')
       | (inl e, w') => handler e w'
       end.

(** An exception raised where no [except] clause is in reach. *)
Definition uncaught {A} (m : M Store exn A) : M Store raised A :=
  λ w, match m w with
       | (inr a, w') => (inr a, w')
       | (inl e, w') => (inl (Uncaught e), w')
       end.

Definition log (c : call) (w : World Store) : World Store :=
  mkWorld (redis w) (calls w ++ [c]).

Context {redis_service : RedisService Store} {trellis_service : TrellisService}.

(** [redis_service.set_json(key, payload, ex=ex)] *)
Definition redis_set_json (key : string) (payload : value) (ex : Z) : M Store exn unit :=
  λ w, let w' := log (CallSetJson key payload ex) w in
       let '(r, s') := set_json key payload ex (redis w') in
       (r, mkWorld s' (calls w')).

(** [redis_service.get_json(key)] *)
Definition redis_get_json (key : string) : M Store exn value :=
  λ w, let w' := log (CallGetJson key) w in
       let '(r, s') := get_json key (redis w') in
       (r, mkWorld s' (calls w')).

(** [trellis_service.generate_3d_asset(images=..., ...)] *)
Definition trellis_call (kw : kwargs) : M Store exn (gmap string value) :=
  λ w, (trellis_generate_3d_asset kw, log (CallGenerate kw) w).
End Monad.

Notation "x ←ₘ m ;; k" := (bind m (λ x, k))
  (at level 100, m at next level, right associativity, only parsing).
Notation "m ;;ₘ k" := (bind m (λ _, k))
  (at level 100, right associativity, only parsing).

(** ** [app/endpoints/trellis/router.py] *)
Module Router.

Definition STATUS_KEY : string := "trellis_status:current".

Record Generate3DRequest : Type := mkGenerate3DRequest {
  images : list string;
  seed : Z;
  randomize_seed : bool;
  texture_size : Z;
  mesh_simplify : float;
  generate_color : bool;
  generate_normal : bool;
  generate_model : bool;
  save_gaussian_ply : bool;
  return_no_background : bool;
  ss_sampling_steps : Z;
  ss_guidance_strength : float;
  slat_sampling_steps : Z;
  slat_guidance_strength : float;
}.

(** Building the model from a JSON body.  How a value that is present is
    checked against its annotation is the validation library's business
    and stays a parameter; a key that is absent takes the default written
    in the class, and [images], which has none, is required. *)
Section Validation.
Variable as_int : value → option Z.
Variable as_bool : value → option bool.
Variable as_float : value → option float.
Variable as_list_str : value → option (list string).

Definition field {A} (check : value → option A) (dflt : option A)
    (body : gmap string value) (name : string) : option A :=
  match body !! name with
  | Some v => check v
  | None => dflt
  end.

Definition parse (body : gmap string value) : option Generate3DRequest :=
  images ← field as_list_str None body "images";
  seed ← field as_int (Some 1337) body "seed";
  randomize_seed ← field as_bool (Some false) body "randomize_seed";
  texture_size ← field as_int (Some 2048) body "texture_size";
  mesh_simplify ← field as_float (Some 0.96%float) body "mesh_simplify";
  generate_color ← field as_bool (Some true) body "generate_color";
  generate_normal ← field as_bool (Some false) body "generate_normal";
  generate_model ← field as_bool (Some true) body "generate_model";
  save_gaussian_ply ← field as_bool (Some false) body "save_gaussian_ply";
  return_no_background ← field as_bool (Some true) body "return_no_background";
  ss_sampling_steps ← field as_int (Some 26) body "ss_sampling_steps";
  ss_guidance_strength ← field as_float (Some 8.0%float) body "ss_guidance_strength";
  slat_sampling_steps ← field as_int (Some 26) body "slat_sampling_steps";
  slat_guidance_strength ← field as_float (Some 3.2%float) body "slat_guidance_strength";
  Some (mkGenerate3DRequest images seed randomize_seed texture_size
          mesh_simplify generate_color generate_normal generate_model
          save_gaussian_ply return_no_background ss_sampling_steps
          ss_guidance_strength slat_sampling_steps slat_guidance_strength).
End Validation.

(** The keyword arguments of the engine call, lines 58-73. *)
Definition engine_kwargs (request : Generate3DRequest) : kwargs :=
  {| kw_images := images request;
     kw_seed := seed request;
     kw_randomize_seed := randomize_seed request;
     kw_texture_size := texture_size request;
     kw_mesh_simplify := mesh_simplify request;
     kw_generate_color := generate_color request;
     kw_generate_normal := generate_normal request;
     kw_generate_model := generate_model request;
     kw_save_gaussian_ply := save_gaussian_ply request;
     kw_return_no_background := return_no_background request;
     kw_ss_sampling_steps := ss_sampling_steps request;
     kw_ss_guidance_strength := ss_guidance_strength request;
     kw_slat_sampling_steps := slat_sampling_steps request;
     kw_slat_guidance_strength := slat_guidance_strength request |}.

(** The three status payloads and the answer of an empty slot. *)
Definition processing_payload : value :=
  VDict {[ "status" := VStr "processing";
           "progress" := VInt 5;
           "message" := VStr "Submitting job to Trellis…" ]}.

Definition complete_payload (output : gmap string value) : value :=
  VDict {[ "status" := VStr "complete";
           "progress" := VInt 100;
           "message" := VStr "3D model generated successfully!";
           "model_file" := dict_get output "model_file";
           "color_video" := dict_get output "color_video";
           "no_background_images" :=
             dict_get_default output "no_background_images" (VList []) ]}.

Definition error_payload (e : exn) : value :=
  VDict {[ "status" := VStr "error";
           "progress" := VInt 0;
           "message" := VStr ("Generation failed: " +:+ str e) ]}.

Definition idle_status : value :=
  VDict {[ "status" := VStr "idle";
           "progress" := VInt 0;
           "message" := VStr "No generation started" ]}.

Section Handlers.
Context {Store : Type}
        {redis_service : RedisService Store} {trellis_service : TrellisService}.

Definition _set_status (payload : value) : M Store exn unit :=
  redis_set_json STATUS_KEY payload 3600.

(** The [except Exception as e] clause of [generate_3d_asset], lines
    86-96.  Nothing catches what its own status write raises. *)
Definition on_exception (e : exn) : M Store raised (gmap string value) :=
  uncaught (_set_status (error_payload e)) ;;ₘ
  raise (HTTPException 500 ("Failed to generate 3D asset: " +:+ str e)).

(** [POST /trellis/generate].  The [logger] calls are left out: they
    touch neither the store nor the engine. *)
Definition generate_3d_asset (request : Generate3DRequest)
  : M Store raised (gmap string value) :=
  try_except
    (_set_status processing_payload ;;ₘ
     output ←ₘ trellis_call (engine_kwargs request) ;;
     _set_status (complete_payload output) ;;ₘ
     ret output)
    on_exception.

(** [GET /trellis/status] *)
Definition get_generation_status : M Store exn value :=
  status ←ₘ redis_get_json STATUS_KEY ;;
  if negb (truthy status) then ret idle_status else ret status.
End Handlers.
End Router.

(** ** [main.py] *)
Module Main.

Record TrellisRequest : Type := mkTrellisRequest {
  images : list string;
  seed : Z;
  randomize_seed : bool;
  texture_size : Z;
  mesh_simplify : float;
  generate_color : bool;
  generate_normal : bool;
  generate_model : bool;
  save_gaussian_ply : bool;
  return_no_background : bool;
  ss_sampling_steps : Z;
  ss_guidance_strength : float;
  slat_sampling_steps : Z;
  slat_guidance_strength : float;
}.

Definition engine_kwargs (request : TrellisRequest) : kwargs :=
  {| kw_images := images request;
     kw_seed := seed request;
     kw_randomize_seed := randomize_seed request;
     kw_texture_size := texture_size request;
     kw_mesh_simplify := mesh_simplify request;
     kw_generate_color := generate_color request;
     kw_generate_normal := generate_normal request;
     kw_generate_model := generate_model request;
     kw_save_gaussian_ply := save_gaussian_ply request;
     kw_return_no_background := return_no_background request;
     kw_ss_sampling_steps := ss_sampling_steps request;
     kw_ss_guidance_strength := ss_guidance_strength request;
     kw_slat_sampling_steps := slat_sampling_steps request;
     kw_slat_guidance_strength := slat_guidance_strength request |}.

(** The model built from a JSON body, with the defaults written in
    [TrellisRequest]; validators are parameters as for the router. *)
Section Validation.
Variable as_int : value → option Z.
Variable as_bool : value → option bool.
Variable as_float : value → option float.
Variable as_list_str : value → option (list string).

Definition parse (body : gmap string value) : option TrellisRequest :=
  images ← Router.field as_list_str None body "images";
  seed ← Router.field as_int (Some 1337) body "seed";
  randomize_seed ← Router.field as_bool (Some false) body "randomize_seed";
  texture_size ← Router.field as_int (Some 2048) body "texture_size";
  mesh_simplify ← Router.field as_float (Some 0.96%float) body "mesh_simplify";
  generate_color ← Router.field as_bool (Some true) body "generate_color";
  generate_normal ← Router.field as_bool (Some false) body "generate_normal";
  generate_model ← Router.field as_bool (Some true) body "generate_model";
  save_gaussian_ply ← Router.field as_bool (Some false) body "save_gaussian_ply";
  return_no_background ←
    Router.field as_bool (Some true) body "return_no_background";
  ss_sampling_steps ← Router.field as_int (Some 26) body "ss_sampling_steps";
  ss_guidance_strength ←
    Router.field as_float (Some 8.0%float) body "ss_guidance_strength";
  slat_sampling_steps ← Router.field as_int (Some 26) body "slat_sampling_steps";
  slat_guidance_strength ←
    Router.field as_float (Some 3.2%float) body "slat_guidance_strength";
  Some (mkTrellisRequest images seed randomize_seed texture_size
          mesh_simplify generate_color generate_normal generate_model
          save_gaussian_ply return_no_background ss_sampling_steps
          ss_guidance_strength slat_sampling_steps slat_guidance_strength).
End Validation.

(** [GET /] *)
Definition read_root : value := VDict {[ "Hello" := VStr "World" ]}.

(** [GET /items/{item_id}]; [q] is [None] when the query string has none. *)
Definition read_item (item_id : Z) (q : option string) : value :=
  VDict {[ "item_id" := VInt item_id;
           "q" := match q with Some s => VStr s | None => VNone end ]}.

Section Handlers.
Context {Store : Type} {trellis_service : TrellisService}.

(** [POST /generate-3d] *)
Definition generate_3d (request : TrellisRequest)
  : M Store raised (gmap string value) :=
  try_except
    (result ←ₘ trellis_call (engine_kwargs request) ;;
     ret result)
    (λ e, raise (HTTPException 500 (str e))).
End Handlers.
End Main.

(** ** The status store *)

(** Modelled from the spec: the store behind [redis_service]
    ([app/core/redis.py] is not part of the sources).  The spec gives it as a
    key-value store with expiry, [SET key value EX seconds] and [GET key],
    holding the JSON text of the record.  Serialising and parsing a JSON
    value gives the value back, so a slot holds the value itself, next to the
    time at which it expires. *)
Record RedisState : Type := mkRedis {
  now : Z;
  slots : gmap string (value * Z);
}.

(** Modelled from the spec: [SET key value EX ex] overwrites the slot and
    sets its expiry [ex] seconds ahead. *)
Definition redis_SET (key : string) (v : value) (ex : Z) (r : RedisState) : RedisState :=
  mkRedis (now r) (<[key := (v, now r + ex)]> (slots r)).

(** Modelled from the spec: [GET key] gives the value of the slot, and
    [None] when there is none or its expiry has been reached. *)
Definition redis_GET (key : string) (r : RedisState) : value :=
  match slots r !! key with
  | Some (v, expiry) => if now r <? expiry then v else VNone
  | None => VNone
  end.

(** Time passing with no call to the store. *)
Definition elapse (seconds : Z) (r : RedisState) : RedisState :=
  mkRedis (now r + seconds) (slots r).

Definition redis_empty : RedisState := mkRedis 0 ∅.

(** Modelled from the spec: [redis_service] over that store; neither call
    raises. *)
Definition redis_model : RedisService RedisState :=
  {| set_json key v ex r := (inr tt, redis_SET key v ex r);
     get_json key r := (inr (redis_GET key r), r) |}.

(** A store that cannot be reached for its next [outage] calls, each of
    which raises, and that is the store above afterwards. *)
Record FlakyState : Type := mkFlaky {
  outage : nat;
  backing : RedisState;
}.

Definition connection_error : exn := Exception "Error connecting to redis:6379".

Definition flaky_model : RedisService FlakyState :=
  {| set_json key v ex s :=
       match outage s with
       | O => (inr tt, mkFlaky O (redis_SET key v ex (backing s)))
       | S n => (inl connection_error, mkFlaky n (backing s))
       end;
     get_json key s :=
       match outage s with
       | O => (inr (redis_GET key (backing s)), s)
       | S n => (inl connection_error, mkFlaky n (backing s))
       end |}.

(** Engine stubs: one that returns a fixed output, one that raises. *)
Definition engine_returns (output : gmap string value) : TrellisService :=
  {| trellis_generate_3d_asset _ := inr output |}.

Definition engine_raises (reason : string) : TrellisService :=
  {| trellis_generate_3d_asset _ := inl (Exception reason) |}.

(** What a handler did, started on store [s] with an empty log. *)
Definition start {Store} (s : Store) : World Store := mkWorld s [].

(** ** Scenarios

    A request that asks for the model only, an engine output that carries the
    model alone, and a store nobody has written to. *)
Definition scenario_request : Router.Generate3DRequest :=
  Router.mkGenerate3DRequest ["http://a/img.png"] 1337 false 2048 0.96%float
    false false true false true 26 8.0%float 26 3.2%float.

(** The JSON body that request is built from. *)
Definition scenario_body : gmap string value :=
  {[ "images" := VList [VStr "http://a/img.png"];
     "generate_model" := VBool true;
     "generate_color" := VBool false ]}.

Definition scenario_output : gmap string value :=
  {[ "model_file" := VStr "m.glb" ]}.

(** A field of a status record; [None] when the value is no dict or lacks
    the key. *)
Definition record_field (record : value) (key : string) : value :=
  match record with
  | VDict d => dict_get d key
  | _ => VNone
  end.

(** The statement that the status write before the engine call is best
    effort, in the spec's words: when that write raises, the engine is
    invoked all the same and the caller gets what the engine's result alone
    decides. *)
Definition pre_write_best_effort {Store : Type}
    {redis_service : RedisService Store} {trellis_service : TrellisService}
    (request : Router.Generate3DRequest) (s : Store) : Prop :=
  ∀ e s1,
    set_json Router.STATUS_KEY Router.processing_payload 3600 s = (inl e, s1) →
    CallGenerate (Router.engine_kwargs request)
      ∈ calls (snd (Router.generate_3d_asset request (start s)))
    ∧ fst (Router.generate_3d_asset request (start s)) =
        match trellis_generate_3d_asset (Router.engine_kwargs request) with
        | inr output => inr output
        | inl e' =>
            inl (HTTPException 500 ("Failed to generate 3D asset: " +:+ str e'))
        end.

(** The first status record as the spec words it. *)
Definition spec_processing_payload : value :=
  VDict {[ "status" := VStr "processing";
           "progress" := VInt 5;
           "message" := VStr "Submitting job…" ]}.

(** Validators that take a value of the annotated type and nothing else;
    they stand in for the validation library in the examples. *)
Definition strict_int (v : value) : option Z :=
  match v with VInt n => Some n | _ => None end.

Definition strict_bool (v : value) : option bool :=
  match v with VBool b => Some b | _ => None end.

Definition strict_float (v : value) : option float :=
  match v with VFloat x => Some x | _ => None end.

Definition strict_str (v : value) : option string :=
  match v with VStr s => Some s | _ => None end.

Definition strict_list_str (v : value) : option (list string) :=
  match v with VList l => mapM strict_str l | _ => None end.

(** The model store after one [_set_status payload]. *)
Definition written (payload : value) (r : RedisState) : RedisState :=
  redis (snd (Router._set_status (redis_service := redis_model) payload (start r))).

(** [GET /trellis/status] against the model store. *)
Definition poll (r : RedisState) : exn + value :=
  fst (Router.get_generation_status (redis_service := redis_model) (start r)).

(** A store that follows a script: each call takes the next entry, [true]
    for a call that goes through and [false] for one that raises; once the
    script is over every call goes through. *)
Record ScriptedState : Type := mkScripted {
  script : list bool;
  behind : RedisState;
}.

Definition scripted_model : RedisService ScriptedState :=
  {| set_json key v ex s :=
       match script s with
       | false :: rest => (inl connection_error, mkScripted rest (behind s))
       | true :: rest => (inr tt, mkScripted rest (redis_SET key v ex (behind s)))
       | [] => (inr tt, mkScripted [] (redis_SET key v ex (behind s)))
       end;
     get_json key s :=
       match script s with
       | false :: rest => (inl connection_error, mkScripted rest (behind s))
       | true :: rest => (inr (redis_GET key (behind s)), mkScripted rest (behind s))
       | [] => (inr (redis_GET key (behind s)), s)
       end |}.

(** The keys of a record. *)
Definition record_keys (record : value) : gset string :=
  match record with
  | VDict d => dom d
  | _ => ∅
  end.

(** What a handler's call may be, for the submission of [request]: a status
    write to the one key with the one expiry, or the engine call with the
    request's own arguments; never a read. *)
Definition submission_call (request : Router.Generate3DRequest) (c : call) : Prop :=
  match c with
  | CallSetJson key _ ex => key = Router.STATUS_KEY ∧ ex = 3600
  | CallGetJson _ => False
  | CallGenerate kw => kw = Router.engine_kwargs request
  end.

(** A record that ends a submission. *)
Definition terminal_record (record : value) : Prop :=
  record_field record "status" = VStr "complete"
  ∨ record_field record "status" = VStr "error".

(** The engine's arguments carry the fields of the request, one for one. *)
Definition same_fields (kw : kwargs) (request : Router.Generate3DRequest) : Prop :=
  kw_images kw = Router.images request
  ∧ kw_seed kw = Router.seed request
  ∧ kw_randomize_seed kw = Router.randomize_seed request
  ∧ kw_texture_size kw = Router.texture_size request
  ∧ kw_mesh_simplify kw = Router.mesh_simplify request
  ∧ kw_generate_color kw = Router.generate_color request
  ∧ kw_generate_normal kw = Router.generate_normal request
  ∧ kw_generate_model kw = Router.generate_model request
  ∧ kw_save_gaussian_ply kw = Router.save_gaussian_ply request
  ∧ kw_return_no_background kw = Router.return_no_background request
  ∧ kw_ss_sampling_steps kw = Router.ss_sampling_steps request
  ∧ kw_ss_guidance_strength kw = Router.ss_guidance_strength request
  ∧ kw_slat_sampling_steps kw = Router.slat_sampling_steps request
  ∧ kw_slat_guidance_strength kw = Router.slat_guidance_strength request.

(** The success case in the spec's words, with nothing asked of the store:
    once the engine has been called and has returned [output], a complete
    record that mirrors [output] has been written and the caller gets
    [output]. *)
Definition success_returns_output {Store : Type}
    {redis_service : RedisService Store} {trellis_service : TrellisService}
    (request : Router.Generate3DRequest) (s : Store) : Prop :=
  ∀ output,
    CallGenerate (Router.engine_kwargs request)
      ∈ calls (snd (Router.generate_3d_asset request (start s))) →
    trellis_generate_3d_asset (Router.engine_kwargs request) = inr output →
    (∃ record,
       CallSetJson Router.STATUS_KEY record 3600
         ∈ calls (snd (Router.generate_3d_asset request (start s)))
       ∧ record_field record "status" = VStr "complete"
       ∧ record_field record "progress" = VInt 100
       ∧ record_field record "model_file" = dict_get output "model_file"
       ∧ record_field record "color_video" = dict_get output "color_video"
       ∧ record_field record "no_background_images" =
           dict_get_default output "no_background_images" (VList []))
    ∧ fst (Router.generate_3d_asset request (start s)) = inr output.

(** The failure case in the spec's words, with nothing asked of the store:
    once the engine has been called and has raised [e], the error record has
    been written and the caller gets the 500 that carries [str e]. *)
Definition failure_reports_reason {Store : Type}
    {redis_service : RedisService Store} {trellis_service : TrellisService}
    (request : Router.Generate3DRequest) (s : Store) : Prop :=
  ∀ e,
    CallGenerate (Router.engine_kwargs request)
      ∈ calls (snd (Router.generate_3d_asset request (start s))) →
    trellis_generate_3d_asset (Router.engine_kwargs request) = inl e →
    (∃ record,
       CallSetJson Router.STATUS_KEY record 3600
         ∈ calls (snd (Router.generate_3d_asset request (start s)))
       ∧ record_field record "status" = VStr "error"
       ∧ record_field record "progress" = VInt 0
       ∧ record_field record "message" = VStr ("Generation failed: " +:+ str e))
    ∧ fst (Router.generate_3d_asset request (start s)) =
        inl (HTTPException 500 ("Failed to generate 3D asset: " +:+ str e)).

(** Forwarding in the spec's words, for every request and with nothing asked
    of the store: the engine is called with the fields of the request. *)
Definition forwards_request {Store : Type}
    {redis_service : RedisService Store} {trellis_service : TrellisService}
    (request : Router.Generate3DRequest) (s : Store) : Prop :=
  ∃ kw,
    CallGenerate kw ∈ calls (snd (Router.generate_3d_asset request (start s)))
    ∧ same_fields kw request.

(** The record a submission writes after the engine call. *)
Definition record_of (answer : exn + gmap string value) : value :=
  match answer with
  | inr output => Router.complete_payload output
  | inl e => Router.error_payload e
  end.

(** An engine stub that looks at what it is given: it returns the images it
    received when [randomize_seed] is set and raises otherwise. *)
Definition engine_echo (reason : string) : TrellisService :=
  {| trellis_generate_3d_asset kw :=
       if kw_randomize_seed kw
       then inr {[ "no_background_images" := VList (VStr <$> kw_images kw) ]}
       else inl (Exception reason) |}.

(** * Properties *)

Import Router.

(** ** Stepping a handler *)
Section Steps.
Context {Store : Type}
          {redis_service : RedisService Store} {trellis_service : TrellisService}.

Lemma set_status_run payload (s : Store) cs :
  _set_status payload (mkWorld s cs) =
    (fst (set_json STATUS_KEY payload 3600 s),
     mkWorld (snd (set_json STATUS_KEY payload 3600 s))
             (cs ++ [CallSetJson STATUS_KEY payload 3600])).
Proof.
  unfold _set_status, redis_set_json, log; simpl.
  by destruct (set_json STATUS_KEY payload 3600 s).
Qed.

Lemma trellis_call_run kw (s : Store) cs :
  trellis_call kw (mkWorld s cs) =
    (trellis_generate_3d_asset kw, mkWorld s (cs ++ [CallGenerate kw])).
Proof. reflexivity. Qed.

Lemma on_exception_run e (s : Store) cs :
  on_exception e (mkWorld s cs) =
    (match fst (set_json STATUS_KEY (error_payload e) 3600 s) with
     | inr _ => inl (HTTPException 500 ("Failed to generate 3D asset: " +:+ str e))
     | inl e' => inl (Uncaught e')
     end,
     mkWorld (snd (set_json STATUS_KEY (error_payload e) 3600 s))
             (cs ++ [CallSetJson STATUS_KEY (error_payload e) 3600])).
Proof.
  unfold on_exception, bind, uncaught, raise. rewrite set_status_run.
  by destruct (set_json STATUS_KEY (error_payload e) 3600 s) as [[e'|[]] s'].
Qed.

(** The whole submission handler, one branch per way through it. *)
Lemma generate_3d_asset_run request (s : Store) cs :
  generate_3d_asset request (mkWorld s cs) =
    let kw := engine_kwargs request in
    let cs1 := cs ++ [CallSetJson STATUS_KEY processing_payload 3600] in
    match set_json STATUS_KEY processing_payload 3600 s with
    | (inl e, s1) => on_exception e (mkWorld s1 cs1)
    | (inr _, s1) =>
        let cs2 := cs1 ++ [CallGenerate kw] in
        match trellis_generate_3d_asset kw with
        | inl e => on_exception e (mkWorld s1 cs2)
        | inr output =>
            let cs3 := cs2 ++ [CallSetJson STATUS_KEY (complete_payload output) 3600] in
            match set_json STATUS_KEY (complete_payload output) 3600 s1 with
            | (inl e, s2) => on_exception e (mkWorld s2 cs3)
            | (inr _, s2) => (inr output, mkWorld s2 cs3)
            end
        end
    end.
Proof.
  unfold generate_3d_asset, try_except, bind. rewrite set_status_run.
  destruct (set_json STATUS_KEY processing_payload 3600 s) as [[e|[]] s1];
    cbn [fst snd]; [done|].
  rewrite trellis_call_run.
  destruct (trellis_generate_3d_asset (engine_kwargs request)) as [e|output];
    cbn [fst snd]; [done|].
  rewrite set_status_run.
  by destruct (set_json STATUS_KEY (complete_payload output) 3600 s1) as [[e|[]] s2].
Qed.
End Steps.

(** ** Submission *)
Section Submission.
Context {Store : Type}
          {redis_service : RedisService Store} {trellis_service : TrellisService}.
Implicit Types (request : Generate3DRequest) (s : Store) (cs : list call).

(** C1, as amended.  When the engine returns [output] and the two status
    writes around it return, the handler has made exactly three calls: the
    processing write, the engine call, and a write of a record with
    [status = "complete"], [progress = 100] and [model_file],
    [color_video] and [no_background_images] read off [output]; it returns
    [output] itself. *)
Theorem generate_success request s s1 s2 cs output :
  set_json STATUS_KEY processing_payload 3600 s = (inr tt, s1) →
  trellis_generate_3d_asset (engine_kwargs request) = inr output →
  set_json STATUS_KEY (complete_payload output) 3600 s1 = (inr tt, s2) →
  generate_3d_asset request (mkWorld s cs) =
    (inr output,
     mkWorld s2 (cs ++ [CallSetJson STATUS_KEY processing_payload 3600;
                        CallGenerate (engine_kwargs request);
                        CallSetJson STATUS_KEY (complete_payload output) 3600]))
  ∧ record_field (complete_payload output) "status" = VStr "complete"
  ∧ record_field (complete_payload output) "progress" = VInt 100
  ∧ record_field (complete_payload output) "model_file" = dict_get output "model_file"
  ∧ record_field (complete_payload output) "color_video" = dict_get output "color_video"
  ∧ record_field (complete_payload output) "no_background_images" =
      dict_get_default output "no_background_images" (VList []).
Proof.
  intros Hpre Hengine Hpost. split; [|done].
  rewrite generate_3d_asset_run; cbn zeta.
  rewrite Hpre, Hengine, Hpost. by rewrite <- !app_assoc.
Qed.

(** C2, as amended.  When the engine raises with reason [str e] and the
    status writes return, the handler writes the record [status = "error"],
    [progress = 0], [message = "Generation failed: " + str e] and raises
    [HTTPException] 500 with detail ["Failed to generate 3D asset: " +
    str e]; it returns no output. *)
Theorem generate_failure request s s1 s2 cs e :
  set_json STATUS_KEY processing_payload 3600 s = (inr tt, s1) →
  trellis_generate_3d_asset (engine_kwargs request) = inl e →
  set_json STATUS_KEY (error_payload e) 3600 s1 = (inr tt, s2) →
  generate_3d_asset request (mkWorld s cs) =
    (inl (HTTPException 500 ("Failed to generate 3D asset: " +:+ str e)),
     mkWorld s2 (cs ++ [CallSetJson STATUS_KEY processing_payload 3600;
                        CallGenerate (engine_kwargs request);
                        CallSetJson STATUS_KEY (error_payload e) 3600]))
  ∧ record_field (error_payload e) "status" = VStr "error"
  ∧ record_field (error_payload e) "progress" = VInt 0
  ∧ record_field (error_payload e) "message" = VStr ("Generation failed: " +:+ str e).
Proof.
  intros Hpre Hengine Hpost. split; [|done].
  rewrite generate_3d_asset_run; cbn zeta.
  rewrite Hpre, Hengine, on_exception_run, Hpost. by rewrite <- !app_assoc.
Qed.

(** C3, as amended.  A status write is not best effort: when the write
    before the engine call raises [e], the [except] clause takes over.  The
    engine is not invoked; the handler attempts the error record with
    message ["Generation failed: " + str e] and, when that write returns,
    raises [HTTPException] 500 with detail ["Failed to generate 3D asset: " +
    str e]; when it raises too, that second exception leaves the handler
    uncaught. *)
Theorem pre_write_failure_aborts request s s1 cs e :
  set_json STATUS_KEY processing_payload 3600 s = (inl e, s1) →
  calls (snd (generate_3d_asset request (mkWorld s cs))) =
    cs ++ [CallSetJson STATUS_KEY processing_payload 3600;
           CallSetJson STATUS_KEY (error_payload e) 3600]
  ∧ (∀ kw, CallGenerate kw ∈ calls (snd (generate_3d_asset request (mkWorld s cs))) →
           CallGenerate kw ∈ cs)
  ∧ fst (generate_3d_asset request (mkWorld s cs)) =
      match fst (set_json STATUS_KEY (error_payload e) 3600 s1) with
      | inr _ => inl (HTTPException 500 ("Failed to generate 3D asset: " +:+ str e))
      | inl e' => inl (Uncaught e')
      end.
Proof.
  intros Hpre.
  rewrite generate_3d_asset_run; cbn zeta.
  rewrite Hpre, on_exception_run; cbn [fst snd calls].
  rewrite <- app_assoc. split_and!; [done| |done].
  intros kw Hin. apply elem_of_app in Hin as [Hin|Hin]; [done|].
  apply elem_of_cons in Hin as [Heq|Hin]; [discriminate Heq|].
  apply list_elem_of_singleton in Hin. discriminate Hin.
Qed.

(** C4, as amended.  Whatever happens next, the first call of the handler
    is the write of the record [status = "processing"], [progress = 5],
    [message = "Submitting job to Trellis…"]; every other call, the engine
    call among them, comes after it. *)
Theorem processing_write_first request s cs :
  ∃ after,
    calls (snd (generate_3d_asset request (mkWorld s cs))) =
      cs ++ CallSetJson STATUS_KEY processing_payload 3600 :: after
    ∧ record_field processing_payload "status" = VStr "processing"
    ∧ record_field processing_payload "progress" = VInt 5
    ∧ record_field processing_payload "message" = VStr "Submitting job to Trellis…".
Proof.
  rewrite generate_3d_asset_run; cbn zeta.
  destruct (set_json STATUS_KEY processing_payload 3600 s) as [[e|[]] s1].
  { rewrite on_exception_run; cbn [snd calls]. rewrite <- app_assoc. by eexists. }
  destruct (trellis_generate_3d_asset (engine_kwargs request)) as [e|output].
  { rewrite on_exception_run; cbn [snd calls]. rewrite <- !app_assoc. by eexists. }
  destruct (set_json STATUS_KEY (complete_payload output) 3600 s1) as [[e|[]] s2].
  { rewrite on_exception_run; cbn [snd calls]. rewrite <- !app_assoc. by eexists. }
  cbn [snd calls]. rewrite <- !app_assoc. by eexists.
Qed.

Lemma same_fields_engine_kwargs request :
  same_fields (engine_kwargs request) request.
Proof. unfold same_fields. by split_and!. Qed.

(** C7, as amended.  Once the processing write has returned, the engine is
    called exactly once; each of its fourteen keyword arguments is the field
    of the same name of the request, whatever the request holds; and it is
    the engine's answer on those very arguments that the next status record
    is built from. *)
Theorem request_forwarded_unmodified request s s1 cs :
  set_json STATUS_KEY processing_payload 3600 s = (inr tt, s1) →
  ∃ kw rest,
    calls (snd (generate_3d_asset request (mkWorld s cs))) =
      cs ++ CallSetJson STATUS_KEY processing_payload 3600
         :: CallGenerate kw
         :: CallSetJson STATUS_KEY (record_of (trellis_generate_3d_asset kw)) 3600
         :: rest
    ∧ (∀ kw', CallGenerate kw' ∉ rest)
    ∧ (∀ output, trellis_generate_3d_asset kw = inr output →
         fst (set_json STATUS_KEY (complete_payload output) 3600 s1) = inr tt →
         fst (generate_3d_asset request (mkWorld s cs)) = inr output)
    ∧ same_fields kw request.
Proof.
  intros Hpre. exists (engine_kwargs request).
  assert (∀ p kw', CallGenerate kw' ∉ [CallSetJson STATUS_KEY p 3600]) as Hnot.
  { intros p kw' Hin. apply list_elem_of_singleton in Hin. discriminate Hin. }
  rewrite generate_3d_asset_run; cbn zeta. rewrite Hpre.
  destruct (trellis_generate_3d_asset (engine_kwargs request)) as [e|output].
  { rewrite on_exception_run; cbn [snd calls record_of]. rewrite <- !app_assoc.
    exists []. split; [reflexivity|]. split; [by intros kw' ?%elem_of_nil|].
    split; [intros output Hout; discriminate Hout|apply same_fields_engine_kwargs]. }
  destruct (set_json STATUS_KEY (complete_payload output) 3600 s1)
    as [[e|[]] s2] eqn:Hpost.
  - rewrite on_exception_run; cbn [snd calls record_of]. rewrite <- !app_assoc.
    eexists. split; [reflexivity|]. split; [apply Hnot|].
    split; [|apply same_fields_engine_kwargs].
    intros output' Hout Hwrite. injection Hout as <-.
    rewrite Hpost in Hwrite. discriminate Hwrite.
  - cbn [snd calls record_of]. rewrite <- !app_assoc.
    exists []. split; [reflexivity|]. split; [by intros kw' ?%elem_of_nil|].
    split; [|apply same_fields_engine_kwargs].
    intros output' Hout _. by injection Hout as <-.
Qed.
End Submission.

(** The spec's first scenario, on the model store: the caller gets
    [{"model_file": "m.glb"}] and the slot holds the complete record. *)
Lemma generate_success_witness :
  @generate_3d_asset _ redis_model (engine_returns scenario_output)
      scenario_request (start redis_empty) =
    (inr scenario_output,
     mkWorld
       (redis_SET STATUS_KEY (complete_payload scenario_output) 3600
          (redis_SET STATUS_KEY processing_payload 3600 redis_empty))
       [CallSetJson STATUS_KEY processing_payload 3600;
        CallGenerate (engine_kwargs scenario_request);
        CallSetJson STATUS_KEY (complete_payload scenario_output) 3600])
  ∧ record_field (complete_payload scenario_output) "status" = VStr "complete"
  ∧ record_field (complete_payload scenario_output) "progress" = VInt 100
  ∧ record_field (complete_payload scenario_output) "model_file" = VStr "m.glb"
  ∧ record_field (complete_payload scenario_output) "color_video" = VNone
  ∧ record_field (complete_payload scenario_output) "no_background_images" = VList [].
Proof.
  exact (generate_success (redis_service := redis_model)
           (trellis_service := engine_returns scenario_output)
           scenario_request redis_empty _ _ [] scenario_output
           eq_refl eq_refl eq_refl).
Defined.

(** The spec's second scenario: the engine raises ["rate limited"]. *)
Lemma generate_failure_witness :
  @generate_3d_asset _ redis_model (engine_raises "rate limited")
      scenario_request (start redis_empty) =
    (inl (HTTPException 500 "Failed to generate 3D asset: rate limited"),
     mkWorld
       (redis_SET STATUS_KEY (error_payload (Exception "rate limited")) 3600
          (redis_SET STATUS_KEY processing_payload 3600 redis_empty))
       [CallSetJson STATUS_KEY processing_payload 3600;
        CallGenerate (engine_kwargs scenario_request);
        CallSetJson STATUS_KEY (error_payload (Exception "rate limited")) 3600])
  ∧ record_field (error_payload (Exception "rate limited")) "status" = VStr "error"
  ∧ record_field (error_payload (Exception "rate limited")) "progress" = VInt 0
  ∧ record_field (error_payload (Exception "rate limited")) "message" =
      VStr "Generation failed: rate limited".
Proof.
  exact (generate_failure (redis_service := redis_model)
           (trellis_service := engine_raises "rate limited")
           scenario_request redis_empty _ _ [] (Exception "rate limited")
           eq_refl eq_refl eq_refl).
Defined.

(** A store that is down for one call: the processing write raises, the
    error write goes through. *)
Lemma pre_write_failure_aborts_witness :
  let run := @generate_3d_asset _ flaky_model (engine_returns scenario_output)
               scenario_request (start (mkFlaky 1 redis_empty)) in
  calls (snd run) =
    [CallSetJson STATUS_KEY processing_payload 3600;
     CallSetJson STATUS_KEY (error_payload connection_error) 3600]
  ∧ (∀ kw, CallGenerate kw ∈ calls (snd run) → CallGenerate kw ∈ [])
  ∧ fst run =
      inl (HTTPException 500
             "Failed to generate 3D asset: Error connecting to redis:6379").
Proof.
  exact (pre_write_failure_aborts (redis_service := flaky_model)
           (trellis_service := engine_returns scenario_output)
           scenario_request (mkFlaky 1 redis_empty) (mkFlaky 0 redis_empty) []
           connection_error eq_refl).
Defined.

(** C3 fails on the same run: the engine would have returned, yet it is
    never reached and the caller gets the 500. *)
Lemma pre_write_best_effort_counterexample :
  ¬ pre_write_best_effort (redis_service := flaky_model)
      (trellis_service := engine_returns scenario_output)
      scenario_request (mkFlaky 1 redis_empty).
Proof.
  intros Hclaim.
  destruct (Hclaim connection_error (mkFlaky 0 redis_empty) eq_refl) as [_ Hresult].
  unfold start in Hresult. rewrite generate_3d_asset_run in Hresult.
  discriminate Hresult.
Qed.

(** C4 fails on the message: in the run of the first scenario no status
    write carries ["Submitting job…"]. *)
Lemma processing_message_counterexample :
  ¬ ∃ key payload ex,
      CallSetJson key payload ex
        ∈ calls (snd (@generate_3d_asset _ redis_model
                        (engine_returns scenario_output)
                        scenario_request (start redis_empty)))
      ∧ record_field payload "message" = VStr "Submitting job…".
Proof.
  intros (key & payload & ex & Hin & Hmessage).
  unfold start in Hin. rewrite generate_3d_asset_run in Hin.
  cbn [snd calls fst set_json redis_model trellis_generate_3d_asset
       engine_returns app] in Hin.
  apply elem_of_cons in Hin as [Heq|Hin].
  { injection Heq as _ -> _. discriminate Hmessage. }
  apply elem_of_cons in Hin as [Heq|Hin]; [discriminate Heq|].
  apply list_elem_of_singleton in Hin.
  injection Hin as _ -> _. discriminate Hmessage.
Qed.

(** A request with every [generate_*] flag off and no image reaches the
    engine as it is: the stub, which answers by what it receives, sees
    [randomize_seed] set and an empty list of images. *)
Lemma request_forwarded_unmodified_witness :
  let request := mkGenerate3DRequest [] 7 true 512 0.5%float
                   false false false true false 1 0%float 2 1%float in
  ∃ kw rest,
    calls (snd (@generate_3d_asset _ redis_model (engine_echo "no seed")
                  request (start redis_empty))) =
      [] ++ CallSetJson STATUS_KEY processing_payload 3600
         :: CallGenerate kw
         :: CallSetJson STATUS_KEY
              (record_of (@trellis_generate_3d_asset (engine_echo "no seed") kw))
              3600
         :: rest
    ∧ (∀ kw', CallGenerate kw' ∉ rest)
    ∧ (∀ output,
         @trellis_generate_3d_asset (engine_echo "no seed") kw = inr output →
         fst (set_json (RedisService := redis_model) STATUS_KEY
                (complete_payload output) 3600
                (redis_SET STATUS_KEY processing_payload 3600 redis_empty)) =
           inr tt →
         fst (@generate_3d_asset _ redis_model (engine_echo "no seed")
                request (start redis_empty)) = inr output)
    ∧ same_fields kw request.
Proof.
  exact (request_forwarded_unmodified (redis_service := redis_model)
           (trellis_service := engine_echo "no seed")
           (mkGenerate3DRequest [] 7 true 512 0.5%float
              false false false true false 1 0%float 2 1%float)
           redis_empty _ [] eq_refl).
Defined.

(** C1 fails when the store refuses the complete record: the engine has
    been called and has returned, the write of the complete record raises,
    and the caller gets the 500 in place of the output. *)
Lemma success_returns_output_counterexample :
  ¬ success_returns_output (redis_service := scripted_model)
      (trellis_service := engine_returns scenario_output)
      scenario_request (mkScripted [true; false] redis_empty).
Proof.
  intros Hclaim.
  destruct (Hclaim scenario_output) as [_ Hresult].
  - unfold start. rewrite generate_3d_asset_run.
    apply elem_of_cons; right. by apply elem_of_cons; left.
  - reflexivity.
  - unfold start in Hresult. rewrite generate_3d_asset_run in Hresult.
    discriminate Hresult.
Qed.

(** C2 fails when the store refuses the error record: the engine has been
    called and has raised, the write inside the [except] clause raises in
    its turn, and what leaves the handler is the store's exception, not the
    500 with the engine's reason. *)
Lemma failure_reports_reason_counterexample :
  ¬ failure_reports_reason (redis_service := scripted_model)
      (trellis_service := engine_raises "rate limited")
      scenario_request (mkScripted [true; false] redis_empty).
Proof.
  intros Hclaim.
  destruct (Hclaim (Exception "rate limited")) as [_ Hresult].
  - unfold start. rewrite generate_3d_asset_run.
    apply elem_of_cons; right. by apply elem_of_cons; left.
  - reflexivity.
  - unfold start in Hresult. rewrite generate_3d_asset_run in Hresult.
    discriminate Hresult.
Qed.

(** C7 fails for a request that meets a store it cannot reach: the
    processing write raises and no call to the engine is made, so nothing of
    the request is forwarded. *)
Lemma forwards_request_counterexample :
  ¬ forwards_request (redis_service := flaky_model)
      (trellis_service := engine_returns scenario_output)
      scenario_request (mkFlaky 1 redis_empty).
Proof.
  intros (kw & Hin & _).
  unfold start in Hin. rewrite generate_3d_asset_run in Hin.
  cbn [set_json flaky_model outage] in Hin. rewrite on_exception_run in Hin.
  cbn [snd calls app] in Hin.
  apply elem_of_cons in Hin as [Heq|Hin]; [discriminate Heq|].
  apply list_elem_of_singleton in Hin. discriminate Hin.
Qed.

(** ** The status slot *)

Lemma written_unfold payload r :
  written payload r = redis_SET STATUS_KEY payload 3600 r.
Proof. reflexivity. Qed.

Lemma redis_GET_missing key r :
  slots r !! key = None ∨
    (∃ v expiry, slots r !! key = Some (v, expiry) ∧ expiry ≤ now r) →
  redis_GET key r = VNone.
Proof.
  unfold redis_GET. intros [->|(v & expiry & -> & Hexpired)]; [done|].
  by rewrite (proj2 (Z.ltb_ge _ _) Hexpired).
Qed.

Lemma redis_GET_fresh key v ex r seconds :
  redis_GET key (elapse seconds (redis_SET key v ex r)) =
    if seconds <? ex then v else VNone.
Proof.
  unfold redis_GET, elapse, redis_SET; cbn [slots now].
  rewrite lookup_insert_eq.
  destruct (Z.ltb_spec seconds ex), (Z.ltb_spec (now r + seconds) (now r + ex));
    done || lia.
Qed.

Lemma get_generation_status_model r cs :
  get_generation_status (redis_service := redis_model) (mkWorld r cs) =
    (inr (if truthy (redis_GET STATUS_KEY r) then redis_GET STATUS_KEY r
          else idle_status),
     mkWorld r (cs ++ [CallGetJson STATUS_KEY])).
Proof.
  unfold get_generation_status, bind, redis_get_json, log, ret; cbn.
  by destruct (truthy (redis_GET STATUS_KEY r)).
Qed.

(** C5.  On the model store a status write never raises and replaces the
    slot as a whole: after [earlier] and then, [gap] seconds later,
    [payload], the slot holds [payload] with an expiry 3600 seconds ahead,
    the store is the one it would be had [earlier] never been written, and a
    read gives [payload] back for 3600 seconds and nothing from then on. *)
Theorem status_write_replaces (r : RedisState) (earlier payload : value) (gap : Z) :
  let r2 := written payload (elapse gap (written earlier r)) in
  fst (_set_status (redis_service := redis_model) payload
         (start (elapse gap (written earlier r)))) = inr tt
  ∧ slots r2 !! STATUS_KEY = Some (payload, now r + gap + 3600)
  ∧ r2 = written payload (elapse gap r)
  ∧ (∀ key, key ≠ STATUS_KEY → slots r2 !! key = slots r !! key)
  ∧ (∀ seconds, redis_GET STATUS_KEY (elapse seconds r2) =
                  if seconds <? 3600 then payload else VNone).
Proof.
  cbn zeta. rewrite !written_unfold. split_and!.
  - reflexivity.
  - unfold redis_SET, elapse; cbn [slots now]. by rewrite lookup_insert_eq.
  - unfold redis_SET, elapse; cbn [slots now]. by rewrite insert_insert_eq.
  - intros key Hkey. unfold redis_SET, elapse; cbn [slots now].
    by rewrite !lookup_insert_ne.
  - intros seconds. apply redis_GET_fresh.
Qed.

(** The two writes named by the spec: nothing of the first survives. *)
Example two_writes_example :
  let first := VDict {[ "status" := VStr "processing"; "progress" := VInt 5 ]} in
  let second := VDict {[ "status" := VStr "complete"; "progress" := VInt 100;
                         "model_file" := VStr "x" ]} in
  let r2 := written second (written first redis_empty) in
  poll r2 = inr second
  ∧ record_field (redis_GET STATUS_KEY r2) "progress" = VInt 100
  ∧ record_field (redis_GET STATUS_KEY r2) "model_file" = VStr "x".
Proof. done. Qed.

(** C6.  On the model store, when the slot is missing or its expiry has been
    reached, the status handler answers with the idle record and leaves the
    store as it was. *)
Theorem status_idle_when_missing (r : RedisState) cs :
  slots r !! STATUS_KEY = None ∨
    (∃ v expiry, slots r !! STATUS_KEY = Some (v, expiry) ∧ expiry ≤ now r) →
  get_generation_status (redis_service := redis_model) (mkWorld r cs) =
    (inr idle_status, mkWorld r (cs ++ [CallGetJson STATUS_KEY]))
  ∧ idle_status = VDict {[ "status" := VStr "idle"; "progress" := VInt 0;
                           "message" := VStr "No generation started" ]}.
Proof.
  intros Hmissing. split; [|done].
  by rewrite get_generation_status_model, (redis_GET_missing _ _ Hmissing).
Qed.

(** Before any submission. *)
Lemma status_idle_when_missing_witness :
  get_generation_status (redis_service := redis_model) (start redis_empty) =
    (inr idle_status, mkWorld redis_empty [CallGetJson STATUS_KEY])
  ∧ idle_status = VDict {[ "status" := VStr "idle"; "progress" := VInt 0;
                           "message" := VStr "No generation started" ]}.
Proof.
  exact (status_idle_when_missing redis_empty [] (or_introl eq_refl)).
Defined.

(** After the retention window: a record written 3600 seconds ago or more
    reads as idle, a younger one (if true) reads as itself. *)
Lemma status_after_retention (r : RedisState) payload seconds :
  poll (elapse seconds (written payload r)) =
    inr (if (seconds <? 3600) && truthy payload then payload else idle_status).
Proof.
  unfold poll, start. rewrite get_generation_status_model, written_unfold,
    redis_GET_fresh; cbn [fst].
  by destruct (seconds <? 3600).
Qed.

Lemma poll_written payload r :
  poll (redis_SET STATUS_KEY payload 3600 r) =
    inr (if truthy payload then payload else idle_status).
Proof.
  unfold poll, start. rewrite get_generation_status_model; cbn [fst].
  unfold redis_GET, redis_SET; cbn [slots now]. rewrite lookup_insert_eq.
  by rewrite (proj2 (Z.ltb_lt _ _)) by lia.
Qed.

(** What a poller sees once a submission is over, on the model store: the
    complete record when the engine returned, the error record when it
    raised. *)
Lemma poll_after_submission {trellis_service : TrellisService}
    (request : Generate3DRequest) (r : RedisState) :
  poll (redis (snd (generate_3d_asset (redis_service := redis_model)
                      request (start r)))) =
    match trellis_generate_3d_asset (engine_kwargs request) with
    | inr output => inr (complete_payload output)
    | inl e => inr (error_payload e)
    end.
Proof.
  unfold start. rewrite generate_3d_asset_run; cbn zeta.
  cbn [set_json redis_model].
  destruct (trellis_generate_3d_asset (engine_kwargs request)) as [e|output].
  - rewrite on_exception_run. cbn [set_json redis_model fst snd redis].
    by rewrite poll_written.
  - cbn [snd redis]. by rewrite poll_written.
Qed.

(** ** The status handler on any store *)
Section Status.
Context {Store : Type} {redis_service : RedisService Store}.

Lemma get_generation_status_run (s : Store) cs :
  get_generation_status (mkWorld s cs) =
    (match fst (get_json STATUS_KEY s) with
     | inr status => inr (if truthy status then status else idle_status)
     | inl e => inl e
     end,
     mkWorld (snd (get_json STATUS_KEY s)) (cs ++ [CallGetJson STATUS_KEY])).
Proof.
  unfold get_generation_status, bind, redis_get_json, log, ret; cbn.
  destruct (get_json STATUS_KEY s) as [[e|status] s']; cbn [fst snd]; [done|].
  by destruct (truthy status).
Qed.

Lemma truthy_dict (d : gmap string value) : truthy (VDict d) = true ↔ d ≠ ∅.
Proof.
  cbn. rewrite negb_true_iff, Nat.eqb_neq. apply map_size_non_empty_iff.
Qed.

Lemma idle_status_not_empty : idle_status ≠ VDict ∅.
Proof.
  intros Heq. apply (f_equal (λ v, record_field v "status")) in Heq.
  discriminate Heq.
Qed.

(** C9.  The status handler answers by the truth value of what the store
    gave: a false value, [None] and the empty dict alike, gives the idle
    record; a true one is returned as it is.  So a stored record comes back
    verbatim exactly when it is not empty. *)
Theorem status_idle_when_falsy (s s' : Store) cs (stored : value) :
  get_json STATUS_KEY s = (inr stored, s') →
  let response := fst (get_generation_status (mkWorld s cs)) in
  (truthy stored = false → response = inr idle_status)
  ∧ (truthy stored = true → response = inr stored)
  ∧ (∀ record, stored = VDict record → response = inr (VDict record) ↔ record ≠ ∅)
  ∧ (stored = VNone ∨ stored = VDict ∅ → response = inr idle_status).
Proof.
  intros Hget. cbn zeta. rewrite get_generation_status_run, Hget; cbn [fst].
  split_and!.
  - by intros ->.
  - by intros ->.
  - intros record ->. rewrite <- truthy_dict.
    destruct (truthy (VDict record)) eqn:Htruth; [by split|].
    split; [|discriminate]. intros Heq%(inj inr).
    destruct (decide (record = ∅)) as [->|Hne].
    + by apply idle_status_not_empty in Heq.
    + apply truthy_dict in Hne. congruence.
  - by intros [->| ->].
Qed.
End Status.

(** An empty record in the slot reads as idle. *)
Lemma status_idle_when_falsy_witness :
  let response := poll (written (VDict ∅) redis_empty) in
  (truthy (VDict ∅) = false → response = inr idle_status)
  ∧ (truthy (VDict ∅) = true → response = inr (VDict ∅))
  ∧ (∀ record, VDict ∅ = VDict record → response = inr (VDict record) ↔ record ≠ ∅)
  ∧ (VDict ∅ = VNone ∨ VDict ∅ = VDict ∅ → response = inr idle_status).
Proof.
  exact (status_idle_when_falsy (redis_service := redis_model)
           (written (VDict ∅) redis_empty) _ [] (VDict ∅) eq_refl).
Defined.

(** ** Request defaults *)
Section Defaults.
Variable as_int : value → option Z.
Variable as_bool : value → option bool.
Variable as_float : value → option float.
Variable as_list_str : value → option (list string).

Lemma field_omitted {A} (check : value → option A) dflt body name :
  body !! name = None → field check dflt body name = dflt.
Proof. unfold field. by intros ->. Qed.

(** C8.  Whatever the validators, a field left out of the body takes the
    default written in the class. *)
Theorem omitted_fields_take_defaults body request :
  parse as_int as_bool as_float as_list_str body = Some request →
  (body !! "seed" = None → seed request = 1337)
  ∧ (body !! "randomize_seed" = None → randomize_seed request = false)
  ∧ (body !! "texture_size" = None → texture_size request = 2048)
  ∧ (body !! "mesh_simplify" = None → mesh_simplify request = 0.96%float)
  ∧ (body !! "save_gaussian_ply" = None → save_gaussian_ply request = false)
  ∧ (body !! "return_no_background" = None → return_no_background request = true)
  ∧ (body !! "ss_sampling_steps" = None → ss_sampling_steps request = 26)
  ∧ (body !! "slat_sampling_steps" = None → slat_sampling_steps request = 26)
  ∧ (body !! "ss_guidance_strength" = None → ss_guidance_strength request = 8.0%float)
  ∧ (body !! "slat_guidance_strength" = None → slat_guidance_strength request = 3.2%float).
Proof.
  unfold parse. intros Hparse.
  repeat match type of Hparse with
         | mbind _ ?m = Some _ =>
             let H := fresh "Hfield" in
             destruct m eqn:H; cbn [mbind option_bind] in Hparse;
             [|discriminate Hparse]
         end.
  injection Hparse as <-; cbn.
  split_and!; intros Hnone;
    match goal with
    | H : field _ _ body ?name = Some _, Hn : body !! ?name = None |- _ =>
        rewrite (field_omitted _ _ _ _ Hn) in H; by injection H
    end.
Qed.

(** A body that holds the images and nothing else is accepted, and every
    other field is its default. *)
Lemma parse_images_only (v : value) imgs :
  as_list_str v = Some imgs →
  parse as_int as_bool as_float as_list_str {[ "images" := v ]} =
    Some (mkGenerate3DRequest imgs 1337 false 2048 0.96%float true false true
            false true 26 8.0%float 26 3.2%float).
Proof.
  intros Himages. unfold parse, field.
  rewrite lookup_singleton_eq, Himages.
  by rewrite !lookup_singleton_ne.
Qed.
End Defaults.

(** The body of the spec's first scenario: [seed] and the other nine are
    left out. *)
Lemma omitted_fields_take_defaults_witness :
  parse strict_int strict_bool strict_float strict_list_str scenario_body =
    Some scenario_request
  ∧ (scenario_body !! "seed" = None → seed scenario_request = 1337)
  ∧ (scenario_body !! "randomize_seed" = None →
       randomize_seed scenario_request = false)
  ∧ (scenario_body !! "texture_size" = None → texture_size scenario_request = 2048)
  ∧ (scenario_body !! "mesh_simplify" = None →
       mesh_simplify scenario_request = 0.96%float)
  ∧ (scenario_body !! "save_gaussian_ply" = None →
       save_gaussian_ply scenario_request = false)
  ∧ (scenario_body !! "return_no_background" = None →
       return_no_background scenario_request = true)
  ∧ (scenario_body !! "ss_sampling_steps" = None →
       ss_sampling_steps scenario_request = 26)
  ∧ (scenario_body !! "slat_sampling_steps" = None →
       slat_sampling_steps scenario_request = 26)
  ∧ (scenario_body !! "ss_guidance_strength" = None →
       ss_guidance_strength scenario_request = 8.0%float)
  ∧ (scenario_body !! "slat_guidance_strength" = None →
       slat_guidance_strength scenario_request = 3.2%float).
Proof.
  split; [reflexivity|].
  exact (omitted_fields_take_defaults strict_int strict_bool strict_float
           strict_list_str scenario_body scenario_request eq_refl).
Defined.

(** ** [POST /generate-3d] *)

Lemma length_append (s1 s2 : string) :
  String.length (s1 +:+ s2) = (String.length s1 + String.length s2)%nat.
Proof. induction s1 as [|c s1 IH]; simpl; [reflexivity|by rewrite IH]. Qed.

Lemma prefixed_differs (reason : string) :
  reason ≠ "Failed to generate 3D asset: " +:+ reason.
Proof.
  intros Heq. apply (f_equal String.length) in Heq.
  rewrite length_append in Heq. cbn in Heq. lia.
Qed.

(** C10.  The handler of [main.py] makes one call, to the engine, and none
    to the store, which it leaves as it found it; it returns what the engine
    returns, and when the engine raises [e] it raises [HTTPException] 500
    whose detail is [str e] alone, which is not the prefixed detail of the
    router. *)
Theorem generate_3d_leaves_status {Store : Type} {trellis_service : TrellisService}
    (request : Main.TrellisRequest) (w : World Store) :
  redis (snd (Main.generate_3d request w)) = redis w
  ∧ calls (snd (Main.generate_3d request w)) =
      calls w ++ [CallGenerate (Main.engine_kwargs request)]
  ∧ fst (Main.generate_3d request w) =
      match trellis_generate_3d_asset (Main.engine_kwargs request) with
      | inr result => inr result
      | inl e => inl (HTTPException 500 (str e))
      end
  ∧ (∀ e, HTTPException 500 (str e) ≠
          HTTPException 500 ("Failed to generate 3D asset: " +:+ str e)).
Proof.
  destruct w as [s cs].
  unfold Main.generate_3d, try_except, bind, ret, raise. rewrite trellis_call_run.
  cbn [redis calls].
  split_and!.
  - by destruct (trellis_generate_3d_asset (Main.engine_kwargs request)).
  - by destruct (trellis_generate_3d_asset (Main.engine_kwargs request)).
  - by destruct (trellis_generate_3d_asset (Main.engine_kwargs request)).
  - intros e Heq. injection Heq as Heq. by apply prefixed_differs in Heq.
Qed.

(** On the model store a poller sees the same answer before and after a
    call of [generate_3d], whether the engine returns or raises. *)
Lemma generate_3d_poll_unchanged {trellis_service : TrellisService}
    (request : Main.TrellisRequest) (r : RedisState) :
  poll (redis (snd (Main.generate_3d request (start r)))) = poll r.
Proof.
  unfold Main.generate_3d, try_except, bind, ret, raise, start.
  rewrite trellis_call_run.
  by destruct (trellis_generate_3d_asset (Main.engine_kwargs request)).
Qed.

(** * Further properties *)

(** ** The request models *)

Ltac split_parse H :=
  repeat match type of H with
         | mbind _ ?m = Some _ =>
             let Hf := fresh "Hfield" in
             destruct m eqn:Hf; cbn [mbind option_bind] in H; [|discriminate H]
         end.

Section Models.
Variable as_int : value → option Z.
Variable as_bool : value → option bool.
Variable as_float : value → option float.
Variable as_list_str : value → option (list string).

Lemma field_present {A} (check : value → option A) dflt body name v :
  body !! name = Some v → field check dflt body name = check v.
Proof. unfold field. by intros ->. Qed.

(** X1.  [images] has no default: a body without it is rejected, whatever else
    it holds. *)
Theorem images_required body :
  body !! "images" = None →
  parse as_int as_bool as_float as_list_str body = None.
Proof.
  intros Hnone. unfold parse. by rewrite (field_omitted _ _ _ _ Hnone).
Qed.

(** X2.  The three output flags have defaults too: colour and model on, normal
    off. *)
Theorem omitted_flags_take_defaults body request :
  parse as_int as_bool as_float as_list_str body = Some request →
  (body !! "generate_color" = None → generate_color request = true)
  ∧ (body !! "generate_normal" = None → generate_normal request = false)
  ∧ (body !! "generate_model" = None → generate_model request = true).
Proof.
  unfold parse. intros Hparse. split_parse Hparse.
  injection Hparse as <-; cbn.
  split_and!; intros Hnone;
    match goal with
    | H : field _ _ body ?name = Some _, Hn : body !! ?name = None |- _ =>
        rewrite (field_omitted _ _ _ _ Hn) in H; by injection H
    end.
Qed.

(** X3.  A key that is present is never replaced by a default: in an accepted
    body the validator has accepted its value, and the field holds what the
    validator made of it. *)
Theorem present_fields_are_validated body request :
  parse as_int as_bool as_float as_list_str body = Some request →
  (∀ v, body !! "images" = Some v → as_list_str v = Some (images request))
  ∧ (∀ v, body !! "seed" = Some v → as_int v = Some (seed request))
  ∧ (∀ v, body !! "randomize_seed" = Some v →
          as_bool v = Some (randomize_seed request))
  ∧ (∀ v, body !! "texture_size" = Some v → as_int v = Some (texture_size request))
  ∧ (∀ v, body !! "mesh_simplify" = Some v →
          as_float v = Some (mesh_simplify request))
  ∧ (∀ v, body !! "generate_color" = Some v →
          as_bool v = Some (generate_color request))
  ∧ (∀ v, body !! "generate_normal" = Some v →
          as_bool v = Some (generate_normal request))
  ∧ (∀ v, body !! "generate_model" = Some v →
          as_bool v = Some (generate_model request))
  ∧ (∀ v, body !! "save_gaussian_ply" = Some v →
          as_bool v = Some (save_gaussian_ply request))
  ∧ (∀ v, body !! "return_no_background" = Some v →
          as_bool v = Some (return_no_background request))
  ∧ (∀ v, body !! "ss_sampling_steps" = Some v →
          as_int v = Some (ss_sampling_steps request))
  ∧ (∀ v, body !! "ss_guidance_strength" = Some v →
          as_float v = Some (ss_guidance_strength request))
  ∧ (∀ v, body !! "slat_sampling_steps" = Some v →
          as_int v = Some (slat_sampling_steps request))
  ∧ (∀ v, body !! "slat_guidance_strength" = Some v →
          as_float v = Some (slat_guidance_strength request)).
Proof.
  unfold parse. intros Hparse. split_parse Hparse.
  injection Hparse as <-; cbn.
  split_and!; intros v Hsome;
    match goal with
    | H : field _ _ body ?name = Some _, Hs : body !! ?name = Some _ |- _ =>
        by rewrite (field_present _ _ _ _ _ Hs) in H
    end.
Qed.

(** X4.  The request models of the two services are one model: a body is accepted
    by both or by neither, and the engine arguments made from it are the
    same. *)
Theorem models_agree body :
  engine_kwargs <$> parse as_int as_bool as_float as_list_str body =
  Main.engine_kwargs <$> Main.parse as_int as_bool as_float as_list_str body.
Proof.
  unfold parse, Main.parse.
  repeat match goal with
         | |- context [mbind _ (field ?c ?d body ?n)] =>
             destruct (field c d body n);
             cbn [mbind option_bind fmap option_fmap option_map]; [|done]
         end.
  reflexivity.
Qed.
End Models.

Lemma images_required_witness :
  parse strict_int strict_bool strict_float strict_list_str
    {[ "seed" := VInt 7; "generate_model" := VBool true ]} = None.
Proof.
  exact (images_required strict_int strict_bool strict_float strict_list_str
           {[ "seed" := VInt 7; "generate_model" := VBool true ]} eq_refl).
Defined.

Lemma omitted_flags_take_defaults_witness :
  let body : gmap string value := {[ "images" := VList [VStr "a.png"] ]} in
  let request := mkGenerate3DRequest ["a.png"] 1337 false 2048 0.96%float
                   true false true false true 26 8.0%float 26 3.2%float in
  parse strict_int strict_bool strict_float strict_list_str body = Some request
  ∧ (body !! "generate_color" = None → generate_color request = true)
  ∧ (body !! "generate_normal" = None → generate_normal request = false)
  ∧ (body !! "generate_model" = None → generate_model request = true).
Proof.
  split; [reflexivity|].
  exact (omitted_flags_take_defaults strict_int strict_bool strict_float
           strict_list_str {[ "images" := VList [VStr "a.png"] ]}
           (mkGenerate3DRequest ["a.png"] 1337 false 2048 0.96%float
              true false true false true 26 8.0%float 26 3.2%float) eq_refl).
Defined.

(** The body of the first scenario sets two flags itself. *)
Lemma present_fields_are_validated_witness :
  (∀ v, scenario_body !! "images" = Some v →
        strict_list_str v = Some (images scenario_request))
  ∧ (∀ v, scenario_body !! "generate_color" = Some v →
          strict_bool v = Some (generate_color scenario_request))
  ∧ (∀ v, scenario_body !! "generate_model" = Some v →
          strict_bool v = Some (generate_model scenario_request)).
Proof.
  pose proof (present_fields_are_validated strict_int strict_bool strict_float
                strict_list_str scenario_body scenario_request eq_refl) as H.
  split_and!; apply H.
Defined.

(** ** The other ways through the submission handler *)
Section Paths.
Context {Store : Type}
        {redis_service : RedisService Store} {trellis_service : TrellisService}.
Implicit Types (request : Generate3DRequest) (s : Store) (cs : list call).

(** X5.  The engine has returned, but the write of the complete record raises
    [e]: the [except] clause takes it for a failed generation.  The output
    is dropped, the error record carries the store's reason, and the caller
    gets the 500 with that reason. *)
Theorem complete_write_failure request s s1 s2 s3 cs output e :
  set_json STATUS_KEY processing_payload 3600 s = (inr tt, s1) →
  trellis_generate_3d_asset (engine_kwargs request) = inr output →
  set_json STATUS_KEY (complete_payload output) 3600 s1 = (inl e, s2) →
  set_json STATUS_KEY (error_payload e) 3600 s2 = (inr tt, s3) →
  generate_3d_asset request (mkWorld s cs) =
    (inl (HTTPException 500 ("Failed to generate 3D asset: " +:+ str e)),
     mkWorld s3 (cs ++ [CallSetJson STATUS_KEY processing_payload 3600;
                        CallGenerate (engine_kwargs request);
                        CallSetJson STATUS_KEY (complete_payload output) 3600;
                        CallSetJson STATUS_KEY (error_payload e) 3600])).
Proof.
  intros Hpre Hengine Hpost Herror.
  rewrite generate_3d_asset_run; cbn zeta.
  rewrite Hpre, Hengine, Hpost, on_exception_run, Herror. by rewrite <- !app_assoc.
Qed.

(** X6.  The engine has raised [e], and the write of the error record raises
    [e2] in its turn: [e2] leaves the handler uncaught, the [HTTPException]
    is never raised, and the engine's reason reaches nobody. *)
Theorem error_write_failure request s s1 s2 cs e e2 :
  set_json STATUS_KEY processing_payload 3600 s = (inr tt, s1) →
  trellis_generate_3d_asset (engine_kwargs request) = inl e →
  set_json STATUS_KEY (error_payload e) 3600 s1 = (inl e2, s2) →
  generate_3d_asset request (mkWorld s cs) =
    (inl (Uncaught e2),
     mkWorld s2 (cs ++ [CallSetJson STATUS_KEY processing_payload 3600;
                        CallGenerate (engine_kwargs request);
                        CallSetJson STATUS_KEY (error_payload e) 3600])).
Proof.
  intros Hpre Hengine Herror.
  rewrite generate_3d_asset_run; cbn zeta.
  rewrite Hpre, Hengine, on_exception_run, Herror. by rewrite <- !app_assoc.
Qed.

Lemma terminal_complete output : terminal_record (complete_payload output).
Proof. by left. Qed.

Lemma terminal_error e : terminal_record (error_payload e).
Proof. by right. Qed.

(** X7.  Whatever the store and the engine do, a submission makes between two
    and four calls; each is a status write to [STATUS_KEY] with an expiry of
    3600 seconds or the engine call with the request's arguments, none is a
    read of the store, and the last one is the write of a record whose
    status is [complete] or [error]. *)
Theorem submission_calls request s cs :
  ∃ made,
    calls (snd (generate_3d_asset request (mkWorld s cs))) = cs ++ made
    ∧ Forall (submission_call request) made
    ∧ (2 ≤ length made ≤ 4)%nat
    ∧ ∃ record,
        last made = Some (CallSetJson STATUS_KEY record 3600)
        ∧ terminal_record record.
Proof.
  rewrite generate_3d_asset_run; cbn zeta.
  destruct (set_json STATUS_KEY processing_payload 3600 s) as [[e|[]] s1].
  { rewrite on_exception_run; cbn [snd calls]. rewrite <- app_assoc.
    eexists. split; [reflexivity|]. split_and!.
    - repeat constructor.
    - cbn; lia.
    - cbn; lia.
    - eexists. split; [reflexivity|apply terminal_error]. }
  destruct (trellis_generate_3d_asset (engine_kwargs request)) as [e|output].
  { rewrite on_exception_run; cbn [snd calls]. rewrite <- !app_assoc.
    eexists. split; [reflexivity|]. split_and!.
    - repeat constructor.
    - cbn; lia.
    - cbn; lia.
    - eexists. split; [reflexivity|apply terminal_error]. }
  destruct (set_json STATUS_KEY (complete_payload output) 3600 s1) as [[e|[]] s2].
  - rewrite on_exception_run; cbn [snd calls]. rewrite <- !app_assoc.
    eexists. split; [reflexivity|]. split_and!.
    + repeat constructor.
    + cbn; lia.
    + cbn; lia.
    + eexists. split; [reflexivity|apply terminal_error].
  - cbn [snd calls]. rewrite <- !app_assoc.
    eexists. split; [reflexivity|]. split_and!.
    + repeat constructor.
    + cbn; lia.
    + cbn; lia.
    + eexists. split; [reflexivity|apply terminal_complete].
Qed.

(** X8.  The status record has no trace of the request: two requests on which
    the engine does the same leave the same store behind and get the same
    answer. *)
Theorem status_independent_of_request request1 request2 s cs :
  trellis_generate_3d_asset (engine_kwargs request1) =
    trellis_generate_3d_asset (engine_kwargs request2) →
  redis (snd (generate_3d_asset request1 (mkWorld s cs))) =
    redis (snd (generate_3d_asset request2 (mkWorld s cs)))
  ∧ fst (generate_3d_asset request1 (mkWorld s cs)) =
      fst (generate_3d_asset request2 (mkWorld s cs)).
Proof.
  intros Hsame. rewrite !generate_3d_asset_run; cbn zeta. rewrite Hsame.
  destruct (set_json STATUS_KEY processing_payload 3600 s) as [[e|[]] s1].
  { by rewrite !on_exception_run. }
  destruct (trellis_generate_3d_asset (engine_kwargs request2)) as [e|output].
  { by rewrite !on_exception_run. }
  destruct (set_json STATUS_KEY (complete_payload output) 3600 s1) as [[e|[]] s2];
    [by rewrite !on_exception_run|done].
Qed.

(** X9.  The two services have each their own engine.  With a store whose
    status writes do not raise, and on requests for which the two engines
    answer alike, the two handlers answer alike: the same output when the
    engines return, and when they raise the same 500, the router's detail
    being that of [main.py] behind the prefix
    ["Failed to generate 3D asset: "]. *)
Theorem services_agree (main_service : TrellisService)
    request (request' : Main.TrellisRequest) s cs :
  (∀ payload s0, ∃ s1, set_json STATUS_KEY payload 3600 s0 = (inr tt, s1)) →
  @trellis_generate_3d_asset trellis_service (engine_kwargs request) =
    @trellis_generate_3d_asset main_service (Main.engine_kwargs request') →
  fst (generate_3d_asset (trellis_service := trellis_service)
         request (mkWorld s cs)) =
    match fst (Main.generate_3d (trellis_service := main_service)
                 request' (mkWorld s cs)) with
    | inr output => inr output
    | inl (HTTPException code detail) =>
        inl (HTTPException code ("Failed to generate 3D asset: " +:+ detail))
    | inl (Uncaught e) => inl (Uncaught e)
    end.
Proof.
  intros Hstore Hanswer.
  rewrite generate_3d_asset_run; cbn zeta.
  unfold Main.generate_3d, try_except, bind, ret, raise.
  rewrite trellis_call_run, <- Hanswer.
  destruct (Hstore processing_payload s) as [s1 ->].
  destruct (@trellis_generate_3d_asset trellis_service (engine_kwargs request))
    as [e|output].
  - rewrite on_exception_run.
    by destruct (Hstore (error_payload e) s1) as [s2 ->].
  - by destruct (Hstore (complete_payload output) s1) as [s2 ->].
Qed.

(** X10.  When the store raises on the read, the status handler lets the
    exception through: no idle record stands in for a store that cannot be
    reached.  Its one call is that read. *)
Theorem status_read_failure s s' cs e :
  get_json STATUS_KEY s = (inl e, s') →
  get_generation_status (mkWorld s cs) =
    (inl e, mkWorld s' (cs ++ [CallGetJson STATUS_KEY])).
Proof.
  intros Hget. by rewrite get_generation_status_run, Hget.
Qed.
End Paths.

(** The store takes the first write and raises on the second. *)
Lemma complete_write_failure_witness :
  fst (@generate_3d_asset _ scripted_model (engine_returns scenario_output)
         scenario_request (start (mkScripted [true; false] redis_empty))) =
    inl (HTTPException 500
           "Failed to generate 3D asset: Error connecting to redis:6379")
  ∧ poll (behind (redis (snd
       (@generate_3d_asset _ scripted_model (engine_returns scenario_output)
          scenario_request (start (mkScripted [true; false] redis_empty)))))) =
      inr (error_payload connection_error).
Proof.
  pose proof (complete_write_failure (redis_service := scripted_model)
                (trellis_service := engine_returns scenario_output)
                scenario_request (mkScripted [true; false] redis_empty)
                _ _ _ [] scenario_output connection_error
                eq_refl eq_refl eq_refl eq_refl) as Hrun.
  unfold start. by rewrite Hrun.
Defined.

Lemma error_write_failure_witness :
  fst (@generate_3d_asset _ scripted_model (engine_raises "rate limited")
         scenario_request (start (mkScripted [true; false] redis_empty))) =
    inl (Uncaught connection_error)
  ∧ poll (behind (redis (snd
       (@generate_3d_asset _ scripted_model (engine_raises "rate limited")
          scenario_request (start (mkScripted [true; false] redis_empty)))))) =
      inr processing_payload.
Proof.
  pose proof (error_write_failure (redis_service := scripted_model)
                (trellis_service := engine_raises "rate limited")
                scenario_request (mkScripted [true; false] redis_empty)
                _ _ [] (Exception "rate limited") connection_error
                eq_refl eq_refl eq_refl) as Hrun.
  unfold start. by rewrite Hrun.
Defined.

(** Two requests that differ in every field. *)
Lemma status_independent_of_request_witness :
  let other := mkGenerate3DRequest [] 7 true 512 0.5%float
                 false false false true false 1 0%float 2 1%float in
  redis (snd (@generate_3d_asset _ redis_model (engine_returns scenario_output)
                scenario_request (start redis_empty))) =
    redis (snd (@generate_3d_asset _ redis_model (engine_returns scenario_output)
                  other (start redis_empty)))
  ∧ fst (@generate_3d_asset _ redis_model (engine_returns scenario_output)
           scenario_request (start redis_empty)) =
      fst (@generate_3d_asset _ redis_model (engine_returns scenario_output)
             other (start redis_empty)).
Proof.
  exact (status_independent_of_request (redis_service := redis_model)
           (trellis_service := engine_returns scenario_output)
           scenario_request
           (mkGenerate3DRequest [] 7 true 512 0.5%float
              false false false true false 1 0%float 2 1%float)
           redis_empty [] eq_refl).
Defined.

(** The request of the first scenario, as [main.py] holds it, and two
    engines that are not the same but both refuse it. *)
Lemma services_agree_witness :
  let request' := Main.mkTrellisRequest ["http://a/img.png"] 1337 false 2048
                    0.96%float false false true false true 26 8.0%float 26
                    3.2%float in
  fst (@generate_3d_asset _ redis_model (engine_raises "rate limited")
         scenario_request (start redis_empty)) =
    match fst (@Main.generate_3d RedisState (engine_echo "rate limited")
                 request' (start redis_empty)) with
    | inr output => inr output
    | inl (HTTPException code detail) =>
        inl (HTTPException code ("Failed to generate 3D asset: " +:+ detail))
    | inl (Uncaught e) => inl (Uncaught e)
    end.
Proof.
  exact (services_agree (redis_service := redis_model)
           (trellis_service := engine_raises "rate limited")
           (engine_echo "rate limited")
           scenario_request
           (Main.mkTrellisRequest ["http://a/img.png"] 1337 false 2048
              0.96%float false false true false true 26 8.0%float 26 3.2%float)
           redis_empty []
           (λ payload s0, ex_intro _ (redis_SET STATUS_KEY payload 3600 s0) eq_refl)
           eq_refl).
Defined.

(** The store is down when the poller asks. *)
Lemma status_read_failure_witness :
  @get_generation_status _ flaky_model (start (mkFlaky 1 redis_empty)) =
    (inl connection_error,
     mkWorld (mkFlaky 0 redis_empty) [CallGetJson STATUS_KEY]).
Proof.
  exact (status_read_failure (redis_service := flaky_model)
           (mkFlaky 1 redis_empty) (mkFlaky 0 redis_empty) []
           connection_error eq_refl).
Defined.

(** ** Submissions and polls on the model store *)

(** The record a submission ends on when every write goes through. *)
Lemma store_after_submission {trellis_service : TrellisService}
    (request : Generate3DRequest) (r : RedisState) cs :
  redis (snd (generate_3d_asset (redis_service := redis_model)
                request (mkWorld r cs))) =
    redis_SET STATUS_KEY
      (match trellis_generate_3d_asset (engine_kwargs request) with
       | inr output => complete_payload output
       | inl e => error_payload e
       end) 3600
      (redis_SET STATUS_KEY processing_payload 3600 r).
Proof.
  rewrite generate_3d_asset_run; cbn zeta. cbn [set_json redis_model].
  destruct (trellis_generate_3d_asset (engine_kwargs request)) as [e|output];
    [by rewrite on_exception_run|done].
Qed.

Lemma terminal_truthy {trellis_service : TrellisService} (request : Generate3DRequest) :
  truthy (match trellis_generate_3d_asset (engine_kwargs request) with
          | inr output => complete_payload output
          | inl e => error_payload e
          end) = true.
Proof. by destruct (trellis_generate_3d_asset (engine_kwargs request)). Qed.

(** X11.  Last writer wins: after two submissions, [gap] seconds apart, a poller
    sees the record of the second and nothing of the first. *)
Theorem last_submission_wins {trellis_service : TrellisService}
    (request1 request2 : Generate3DRequest) (r : RedisState) (gap : Z) :
  let after1 := redis (snd (generate_3d_asset (redis_service := redis_model)
                              request1 (start r))) in
  let after2 := redis (snd (generate_3d_asset (redis_service := redis_model)
                              request2 (start (elapse gap after1)))) in
  poll after2 =
    match trellis_generate_3d_asset (engine_kwargs request2) with
    | inr output => inr (complete_payload output)
    | inl e => inr (error_payload e)
    end
  ∧ after2 = redis (snd (generate_3d_asset (redis_service := redis_model)
                           request2 (start (elapse gap r)))).
Proof.
  cbn zeta. unfold start. rewrite !store_after_submission. split.
  - rewrite poll_written, terminal_truthy.
    by destruct (trellis_generate_3d_asset (engine_kwargs request2)).
  - unfold redis_SET, elapse; cbn [slots now]. by rewrite !insert_insert_eq.
Qed.

(** X12.  The record of a finished submission is there for 3600 seconds and gone
    afterwards: from then on a poller is told that nothing was started. *)
Theorem submission_record_expires {trellis_service : TrellisService}
    (request : Generate3DRequest) (r : RedisState) (seconds : Z) :
  poll (elapse seconds
          (redis (snd (generate_3d_asset (redis_service := redis_model)
                         request (start r))))) =
    if seconds <? 3600 then
      match trellis_generate_3d_asset (engine_kwargs request) with
      | inr output => inr (complete_payload output)
      | inl e => inr (error_payload e)
      end
    else inr idle_status.
Proof.
  unfold start. rewrite store_after_submission.
  unfold poll, start. rewrite get_generation_status_model, redis_GET_fresh; cbn [fst].
  destruct (seconds <? 3600); [|done].
  rewrite terminal_truthy.
  by destruct (trellis_generate_3d_asset (engine_kwargs request)).
Qed.

(** X13.  A submission touches one slot: every other key of the store, and the
    clock, are as before. *)
Theorem submission_frame {trellis_service : TrellisService}
    (request : Generate3DRequest) (r : RedisState) (key : string) :
  key ≠ STATUS_KEY →
  slots (redis (snd (generate_3d_asset (redis_service := redis_model)
                       request (start r)))) !! key = slots r !! key.
Proof.
  intros Hkey. unfold start. rewrite store_after_submission.
  unfold redis_SET; cbn [slots]. by rewrite !lookup_insert_ne.
Qed.

(** ** The complete record *)

(** X14.  Whatever the engine returned, the complete record has the same six
    keys: the three mirrored ones are there even when the output lacks
    them, and no other key of the output gets in. *)
Theorem complete_record_keys (output : gmap string value) :
  record_keys (complete_payload output) =
    {[ "status"; "progress"; "message"; "model_file"; "color_video";
       "no_background_images" ]}
  ∧ (∀ key, key ∉ record_keys (complete_payload output) →
            record_field (complete_payload output) key = VNone)
  ∧ (output !! "model_file" = None →
       record_field (complete_payload output) "model_file" = VNone)
  ∧ (output !! "color_video" = None →
       record_field (complete_payload output) "color_video" = VNone)
  ∧ (output !! "no_background_images" = None →
       record_field (complete_payload output) "no_background_images" = VList []).
Proof.
  split_and!.
  - unfold complete_payload, record_keys.
    rewrite !dom_insert_L, dom_singleton_L. set_solver.
  - intros key Hkey. unfold complete_payload, record_keys, record_field in *.
    apply not_elem_of_dom in Hkey. unfold dict_get at 1. by rewrite Hkey.
  - intros Hnone. cbn. unfold dict_get. by rewrite Hnone.
  - intros Hnone. cbn. unfold dict_get. by rewrite Hnone.
  - intros Hnone. cbn. unfold dict_get_default. by rewrite Hnone.
Qed.

(** ** [GET /items/{item_id}] *)

(** X15.  The answer of [read_item] gives both inputs back: two calls answer
    alike only on the same [item_id] and the same [q], a [q] left out
    being told from every [q] given. *)
Theorem read_item_round_trip (item_id item_id' : Z) (q q' : option string) :
  Main.read_item item_id q = Main.read_item item_id' q' →
  item_id = item_id' ∧ q = q'.
Proof.
  intros Heq. split.
  - apply (f_equal (λ v, record_field v "item_id")) in Heq. by injection Heq.
  - apply (f_equal (λ v, record_field v "q")) in Heq.
    destruct q, q'; vm_compute in Heq; by simplify_eq.
Qed.

Lemma read_item_round_trip_witness :
  (3 : Z) = 3 ∧ Some "x" = Some "x".
Proof.
  exact (read_item_round_trip 3 3 (Some "x") (Some "x") eq_refl).
Defined.

Lemma submission_frame_witness :
  slots (redis (snd (@generate_3d_asset _ redis_model
                       (engine_returns scenario_output) scenario_request
                       (start (redis_SET "other" (VInt 1) 60 redis_empty)))))
    !! "other" = Some (VInt 1, 60).
Proof.
  exact (submission_frame (trellis_service := engine_returns scenario_output)
           scenario_request (redis_SET "other" (VInt 1) 60 redis_empty)
           "other" ltac:(discriminate)).
Defined.
